(** * PySparkPredict: a batch-inference script, embedded and verified

    The script [src/mlflow/PySparkPredict.py] reads a parquet dataset with
    Spark, loads a model from MLflow, applies it, keeps two columns and writes
    the result as parquet.  Its own code is glue; everything of substance is
    done by three collaborators: the Spark session, the MLflow registry and
    [argparse].  The embedding therefore consists of

    - a small model of the collaborators, as far as their documented
      behaviour is observable from the script (tables, the storage the
      session reads and writes, the registry, the process environment);
    - the script itself, translated statement by statement into a state and
      exception monad over that model, with a log of the collaborator calls.

    What the model takes from the collaborators:
    - a path names one place of the storage, and datasets at different
      paths are independent of each other;
    - [DataFrameWriter.parquet], called without a mode as in the script,
      refuses a path that exists;
    - [DataFrame.select] names the columns of its result as they were
      asked for and keeps the rows; how names are compared with the
      columns of the table is left to the session;
    - loading a model reads the registry and changes nothing; a loaded
      model is a function from tables to tables, which may raise;
    - Spark defers the work on the rows to the write; the model evaluates
      every call where the script makes it, which is where Spark checks
      the schema and so where the exceptions modelled here are raised.

    What the model leaves out:
    - tables that list one attribute twice: two columns of a table are two
      attributes, also when they have one name;
    - failures while the rows are computed during the write, and what such
      a write leaves at the output path: the rows of a table are there when
      the model returns it;
    - other spellings of one place: a path is taken as written. *)

From Stdlib Require Import ZArith QArith Ascii String List.
From stdpp Require Import base option list strings gmap.

Local Open Scope string_scope.
Local Open Scope list_scope.

(** ** Tables *)

(** A cell of a table. *)
Inductive value : Type :=
  | VInt (z : Z)
  | VDouble (q : Q)
  | VStr (s : string)
  | VNull.

(** A [DataFrame]: a schema, here the list of column names in order, and the
    rows, positional with respect to the schema. *)
Record DataFrame : Type := mkDataFrame {
  columns : list string;
  rows : list (list value)
}.

(** ** Exceptions

    The script catches nothing: whatever a collaborator raises ends the run. *)
Inductive exn : Type :=
  | PathDoesNotExist (path : string)       (* spark.read.parquet *)
  | PathAlreadyExists (path : string)      (* df.write, default mode *)
  | UnresolvedColumn (name : string)       (* DataFrame.select *)
  | AmbiguousReference (name : string)     (* DataFrame.select *)
  | MlflowException (uri : string)         (* mlflow.spark.load_model *)
  | IllegalArgumentException (msg : string) (* a model, or an empty path *)
  | SystemExit.                            (* argparse: error or --help *)

Inductive attempt (A : Type) : Type :=
  | Returned (a : A)
  | Raised (e : exn).
Arguments Returned {A} a.
Arguments Raised {A} e.

(** A loaded model is opaque: all the script does with it is call
    [transform] on a table. *)
Definition Model : Type := DataFrame -> attempt DataFrame.

(** ** The world outside the process *)

Record World : Type := mkWorld {
  fs : gmap string DataFrame;           (* datasets, by storage path *)
  registry : gmap string Model;         (* model artifacts, by URI *)
  environ : gmap string string;         (* os.environ *)
  sql_resolver : string -> string -> bool
    (* how the ambient Spark configuration compares column names
       (spark.sql.caseSensitive) *)
}.

Definition set_fs (f : gmap string DataFrame) (w : World) : World :=
  mkWorld f (registry w) (environ w) (sql_resolver w).

Definition set_environ (e : gmap string string) (w : World) : World :=
  mkWorld (fs w) (registry w) e (sql_resolver w).

(** ** Calls to the collaborators, as logged *)

Inductive event : Type :=
  | EvSetEnv (key val : string)
  | EvParseArgs
  | EvGetOrCreate (app : string)
  | EvReadParquet (path : string)
  | EvLoadModel (uri : string)
  | EvTransform
  | EvSelect (cols : list string)
  | EvWriteParquet (path : string).

(** The calls that make up the three stages of the pipeline. *)
Definition is_stage (ev : event) : bool :=
  match ev with
  | EvReadParquet _ | EvLoadModel _ | EvTransform | EvSelect _
  | EvWriteParquet _ => true
  | EvSetEnv _ _ | EvParseArgs | EvGetOrCreate _ => false
  end.

(** ** The monad of the script

    A computation runs in a world and ends in a world, with the log of the
    calls it made, each with the environment it was made in, and either a
    value or the exception that stopped it.  An exception does not roll
    anything back. *)

Record Outcome (A : Type) : Type := mkOutcome {
  final : World;
  trace : list (event * gmap string string);
  res : attempt A
}.
Arguments mkOutcome {A} final trace res.
Arguments final {A} o.
Arguments trace {A} o.
Arguments res {A} o.

Definition M (A : Type) : Type := World -> Outcome A.

Definition ret {A} (a : A) : M A := fun w => mkOutcome w [] (Returned a).

Definition raise {A} (e : exn) : M A := fun w => mkOutcome w [] (Raised e).

Definition bind {A B} (m : M A) (k : A -> M B) : M B := fun w =>
  match m w with
  | mkOutcome w1 calls1 (Returned a) =>
      match k a w1 with
      | mkOutcome w2 calls2 r => mkOutcome w2 (calls1 ++ calls2) r
      end
  | mkOutcome w1 calls1 (Raised e) => mkOutcome w1 calls1 (Raised e)
  end.

Definition get : M World := fun w => mkOutcome w [] (Returned w).

Definition put (w' : World) : M unit := fun _ => mkOutcome w' [] (Returned tt).

Definition emit (ev : event) : M unit := fun w =>
  mkOutcome w [(ev, environ w)] (Returned tt).

Definition lift {A} (a : attempt A) : M A :=
  match a with
  | Returned x => ret x
  | Raised e => raise e
  end.

Declare Scope script_scope.
Delimit Scope script_scope with script.
Notation "x <- c1 ;; c2" := (bind c1 (fun x => c2))
  (at level 100, c1 at next level, right associativity) : script_scope.
Notation "c1 ;; c2" := (bind c1 (fun _ => c2))
  (at level 100, right associativity) : script_scope.
Local Open Scope script_scope.

(** ** Spark *)

Record SparkSession : Type := mkSparkSession {
  appName : string;
  resolver : string -> string -> bool
}.

(** [SparkSession.builder.appName(name).getOrCreate()] *)
Definition getOrCreate (name : string) : M SparkSession :=
  emit (EvGetOrCreate name) ;;
  w <- get ;;
  ret (mkSparkSession name (sql_resolver w)).

(** What the reader raises when nothing can be read at a path: the empty
    string is no path at all. *)
Definition unreadable (path : string) : exn :=
  if String.eqb path ""
  then IllegalArgumentException "Can not create a Path from an empty string"
  else PathDoesNotExist path.

(** [spark.read.parquet(path)] *)
Definition read_parquet (spark : SparkSession) (path : string) : M DataFrame :=
  emit (EvReadParquet path) ;;
  w <- get ;;
  match fs w !! path with
  | Some df => ret df
  | None => raise (unreadable path)
  end.

(** Positions of the columns that a name resolves to. *)
Fixpoint matches (r : string -> string -> bool) (name : string)
    (cols : list string) (i : nat) : list nat :=
  match cols with
  | [] => []
  | c :: cols' =>
      if r c name then i :: matches r name cols' (S i)
      else matches r name cols' (S i)
  end.

Definition ambiguous (r : string -> string -> bool) (cols : list string)
    (name : string) : bool :=
  match matches r name cols 0 with
  | _ :: _ :: _ => true
  | _ => false
  end.

Definition unresolved (r : string -> string -> bool) (cols : list string)
    (name : string) : bool :=
  match matches r name cols 0 with
  | [] => true
  | _ => false
  end.

(** The positions of the columns the names resolve to.  A name that more
    than one column answers to is refused while the names are resolved; a
    name that no column answers to is reported afterwards, when the plan is
    checked: so an ambiguous name is raised before a missing one, wherever
    the two stand in the list. *)
Definition resolve_columns (r : string -> string -> bool) (cols : list string)
    (names : list string) : attempt (list nat) :=
  match List.find (ambiguous r cols) names with
  | Some name => Raised (AmbiguousReference name)
  | None =>
      match List.find (unresolved r cols) names with
      | Some name => Raised (UnresolvedColumn name)
      | None => Returned (map (fun name => hd 0 (matches r name cols 0)) names)
      end
  end.

Definition project (idx : list nat) (row : list value) : list value :=
  map (fun i => nth i row VNull) idx.

(** The table that [df.select] denotes for the given names: every name
    must resolve to one column; the result has one column per name, called
    as the name was written, and one row per row of [df]. *)
Definition select_columns (r : string -> string -> bool) (names : list string)
    (df : DataFrame) : attempt DataFrame :=
  match resolve_columns r (columns df) names with
  | Raised e => Raised e
  | Returned idx => Returned (mkDataFrame names (map (project idx) (rows df)))
  end.

(** [df.select], called with the names as its arguments *)
Definition select (spark : SparkSession) (names : list string)
    (df : DataFrame) : M DataFrame :=
  emit (EvSelect names) ;;
  lift (select_columns (resolver spark) names df).

(** [df.write.parquet(path)], in the writer's default mode: an existing
    path is an error, nothing is replaced. *)
Definition write_parquet (df : DataFrame) (path : string) : M unit :=
  emit (EvWriteParquet path) ;;
  w <- get ;;
  match fs w !! path with
  | Some _ => raise (PathAlreadyExists path)
  | None => put (set_fs (<[path := df]> (fs w)) w)
  end.

(** ** MLflow *)

(** [mlflow.spark.load_model(model_uri)] *)
Definition load_model (model_uri : string) : M Model :=
  emit (EvLoadModel model_uri) ;;
  w <- get ;;
  match registry w !! model_uri with
  | Some m => ret m
  | None => raise (MlflowException model_uri)
  end.

(** [model.transform(df)] *)
Definition transform (model : Model) (df : DataFrame) : M DataFrame :=
  emit EvTransform ;;
  lift (model df).

(** ** The script *)

(** [os.environ[key] = val] *)
Definition setenv (key val : string) : M unit :=
  emit (EvSetEnv key val) ;;
  w <- get ;;
  put (set_environ (<[key := val]> (environ w)) w).

(** Lines 8 to 10. *)
Definition configure_environ : M unit :=
  setenv "MLFLOW_S3_ENDPOINT_URL" "https://url.net" ;;
  setenv "AWS_ACCESS_KEY_ID" "key-id" ;;
  setenv "AWS_SECRET_ACCESS_KEY" "access-key".

Definition output_columns : list string := ["driver_id"; "prediction"].

Definition process (spark : SparkSession) (data_path result model_uri : string)
    : M unit :=
  data_df <- read_parquet spark data_path ;;
  model <- load_model model_uri ;;
  predictions <- (transformed <- transform model data_df ;;
                  select spark output_columns transformed) ;;
  write_parquet predictions result.

Definition _spark_session : M SparkSession := getOrCreate "PySparkPredict".

Definition main (data_path result_path model_uri : string) : M unit :=
  spark <- _spark_session ;;
  process spark data_path result_path model_uri.

(** ** argparse

    What [argparse] does with the characters of a command line (splitting
    [--opt=value], abbreviations, [-h]) is not the script's business and is
    not modelled.  A command line is taken as [argparse] reads it: a sequence
    of options given with a value, or something it ends the process for. *)

Record Argument : Type := mkArgument {
  option_string : string;
  default : string
}.

Definition ArgumentParser : Type := list Argument.

Definition new_parser : ArgumentParser := [].

(** [parser.add_argument(opt, type=str, default=dflt)] *)
Definition add_argument (opt dflt : string) (p : ArgumentParser)
    : ArgumentParser :=
  p ++ [mkArgument opt dflt].

(** The attribute an option is stored under: the option string without its
    leading dashes, and with an underscore for every dash that is left. *)
Fixpoint lstrip_dashes (opt : string) : string :=
  match opt with
  | String "-"%char opt' => lstrip_dashes opt'
  | _ => opt
  end.

Fixpoint underscored (s : string) : string :=
  match s with
  | "" => ""
  | String c s' =>
      String (if Ascii.eqb c "-" then "_"%char else c) (underscored s')
  end.

Definition dest (opt : string) : string := underscored (lstrip_dashes opt).

Definition Namespace : Type := gmap string string.

Inductive cli_item : Type :=
  | Given (opt value : string)
      (* the option declared as [opt], with a value *)
  | Unparsable.
      (* an unknown option, a missing value, a stray word, a help request *)

Definition find_argument (p : ArgumentParser) (opt : string)
    : option Argument :=
  List.find (fun a => String.eqb (option_string a) opt) p.

Definition initial_namespace (p : ArgumentParser) : Namespace :=
  fold_left (fun ns a => <[dest (option_string a) := default a]> ns) p ∅.

Fixpoint store_all (p : ArgumentParser) (ns : Namespace)
    (argv : list cli_item) : attempt Namespace :=
  match argv with
  | [] => Returned ns
  | Given opt v :: argv' =>
      match find_argument p opt with
      | Some a => store_all p (<[dest (option_string a) := v]> ns) argv'
      | None => Raised SystemExit
      end
  | Unparsable :: _ => Raised SystemExit
  end.

(** [parser.parse_args()] *)
Definition parse_args (p : ArgumentParser) (argv : list cli_item)
    : M Namespace :=
  emit EvParseArgs ;;
  lift (store_all p (initial_namespace p) argv).

(** [args.name]; the parser has stored every attribute the script reads,
    so the second case does not arise. *)
Definition attr (args : Namespace) (name : string) : string :=
  match args !! name with
  | Some v => v
  | None => ""
  end.

(** Lines 49 to 52. *)
Definition parser : ArgumentParser :=
  let parser := new_parser in
  let parser := add_argument "--data" "data.parquet" parser in
  let parser := add_argument "--result" "result" parser in
  add_argument "--model_uri"
    "s3://kc-mlflow/341/49349c2583f94de18093e90d3d6ea578/artifacts/e-sidorova"
    parser.

(** The whole file, run as a program: the assignments to [os.environ] at
    module level, then the block under [__main__]. *)
Definition script (argv : list cli_item) : M unit :=
  configure_environ ;;
  args <- parse_args parser argv ;;
  main (attr args "data") (attr args "result") (attr args "model_uri").

(** ** Vocabulary of the specification *)

(** A model that works row by row: from the schema of its input it either
    rejects the table or fixes the schema of its output and a function that
    is applied to every row. *)
Definition RowFunction : Type :=
  list string -> attempt (list string * (list value -> list value)).

Definition rowwise_model (f : RowFunction) : Model := fun df =>
  match f (columns df) with
  | Raised e => Raised e
  | Returned (out_columns, g) =>
      Returned (mkDataFrame out_columns (map g (rows df)))
  end.


(** Two registry lookups that resolve to the same model, as a function from
    tables to tables, or that both fail. *)
Definition same_model (m1 m2 : option Model) : Prop :=
  match m1, m2 with
  | Some f1, Some f2 => forall df, f1 df = f2 df
  | None, None => True
  | _, _ => False
  end.

(** The calls of one run of [process] that gets to the end, in order. *)
Definition pipeline (data_path result model_uri : string) : list event :=
  [ EvReadParquet data_path;
    EvLoadModel model_uri;
    EvTransform;
    EvSelect output_columns;
    EvWriteParquet result ].

(** Calls, logged in the environment of world [w]. *)
Definition logged (w : World) (evs : list event)
    : list (event * gmap string string) :=
  map (fun ev => (ev, environ w)) evs.

Definition calls {A} (o : Outcome A) : list event := map fst (trace o).

(** The ways a run of [process] can go: it stops at the first call that
    raises, with the world as it found it, or it gets through the five
    calls and the world has one dataset more. *)
Inductive process_spec (spark : SparkSession)
    (data_path result model_uri : string) (w : World)
    : Outcome unit -> Prop :=
  | run_unreadable :
      fs w !! data_path = None ->
      process_spec spark data_path result model_uri w
        (mkOutcome w (logged w (take 1 (pipeline data_path result model_uri)))
           (Raised (unreadable data_path)))
  | run_unresolved data_df :
      fs w !! data_path = Some data_df ->
      registry w !! model_uri = None ->
      process_spec spark data_path result model_uri w
        (mkOutcome w (logged w (take 2 (pipeline data_path result model_uri)))
           (Raised (MlflowException model_uri)))
  | run_rejected data_df (model : Model) e :
      fs w !! data_path = Some data_df ->
      registry w !! model_uri = Some model ->
      model data_df = Raised e ->
      process_spec spark data_path result model_uri w
        (mkOutcome w (logged w (take 3 (pipeline data_path result model_uri)))
           (Raised e))
  | run_unselectable data_df (model : Model) transformed e :
      fs w !! data_path = Some data_df ->
      registry w !! model_uri = Some model ->
      model data_df = Returned transformed ->
      select_columns (resolver spark) output_columns transformed = Raised e ->
      process_spec spark data_path result model_uri w
        (mkOutcome w (logged w (take 4 (pipeline data_path result model_uri)))
           (Raised e))
  | run_unwritable data_df (model : Model) transformed predictions old :
      fs w !! data_path = Some data_df ->
      registry w !! model_uri = Some model ->
      model data_df = Returned transformed ->
      select_columns (resolver spark) output_columns transformed
        = Returned predictions ->
      fs w !! result = Some old ->
      process_spec spark data_path result model_uri w
        (mkOutcome w (logged w (pipeline data_path result model_uri))
           (Raised (PathAlreadyExists result)))
  | run_written data_df (model : Model) transformed predictions :
      fs w !! data_path = Some data_df ->
      registry w !! model_uri = Some model ->
      model data_df = Returned transformed ->
      select_columns (resolver spark) output_columns transformed
        = Returned predictions ->
      fs w !! result = None ->
      process_spec spark data_path result model_uri w
        (mkOutcome (set_fs (<[result := predictions]> (fs w)) w)
           (logged w (pipeline data_path result model_uri))
           (Returned tt)).

(** The three settings of the artifact store, as lines 8 to 10 leave them. *)
Definition credentials_set (env : gmap string string) : Prop :=
  env !! "MLFLOW_S3_ENDPOINT_URL" = Some "https://url.net" /\
  env !! "AWS_ACCESS_KEY_ID" = Some "key-id" /\
  env !! "AWS_SECRET_ACCESS_KEY" = Some "access-key".

(** No option of the command line is the one declared as [opt]. *)
Definition omitted (opt : string) (argv : list cli_item) : Prop :=
  forall v, ~ In (Given opt v) argv.

(** The pieces of a URI between slashes. *)
Fixpoint segments (s : string) : list string :=
  match s with
  | "" => [""]
  | String c s' =>
      match segments s' with
      | [] => [String c ""]
      | seg :: segs =>
          if Ascii.eqb c "/" then "" :: seg :: segs
          else String c seg :: segs
      end
  end.

Definition nonempty (s : string) : bool := negb (String.eqb s "").

Fixpoint ends_with_colon (s : string) : bool :=
  match s with
  | "" => false
  | String c "" => Ascii.eqb c ":"
  | String _ s' => ends_with_colon s'
  end.

(** The shape of the URI of an artifact of a run: a scheme and [//], the
    root of the registry's store, and under it
    [experiment-id/run-id/artifacts/name]. *)
Definition registry_uri (s : string) : bool :=
  match segments s with
  | scheme :: "" :: path =>
      ends_with_colon scheme && nonempty scheme &&
      match rev path with
      | name :: "artifacts" :: run_id :: experiment_id :: _ =>
          nonempty name && nonempty run_id && nonempty experiment_id
      | _ => false
      end
  | _ => false
  end.

(** ** Sample data: the scenario of the specification *)

Definition sample_data : DataFrame :=
  mkDataFrame ["driver_id"; "f1"]
    [ [VInt 1; VDouble (2 # 10)];
      [VInt 2; VDouble (9 # 10)] ].

(** The same drivers, with more columns. *)
Definition wide_data : DataFrame :=
  mkDataFrame ["city"; "driver_id"; "trips"; "f1"]
    [ [VStr "Kazan"; VInt 1; VInt 14; VDouble (2 # 10)];
      [VStr "Perm"; VInt 2; VInt 3; VDouble (9 # 10)] ].


(** A model that predicts [f1 > 0.5] and appends the prediction. *)
Definition predict (cell : value) : value :=
  match cell with
  | VDouble q => if Qle_bool q (5 # 10) then VInt 0 else VInt 1
  | _ => VNull
  end.

Definition threshold : RowFunction := fun cols =>
  match matches String.eqb "f1" cols 0 with
  | [i] =>
      Returned (cols ++ ["prediction"],
                fun row => row ++ [predict (nth i row VNull)])
  | _ => Raised (IllegalArgumentException "f1 does not exist")
  end.

Definition threshold_model : Model := rowwise_model threshold.

Definition sample_uri : string := "s3://models/1/abc/artifacts/threshold".

Definition sample_spark : SparkSession :=
  mkSparkSession "PySparkPredict" String.eqb.

Definition world_with (df : DataFrame) : World :=
  mkWorld {[ "data.parquet" := df ]} {[ sample_uri := threshold_model ]}
    ∅ String.eqb.

Definition sample_world : World := world_with sample_data.

(** A world whose registry has no model at all. *)
Definition world_without_model : World :=
  mkWorld {[ "data.parquet" := sample_data ]} ∅ ∅ String.eqb.

(** Another world: the same dataset and the same model, among other
    datasets, other models and other settings. *)
Definition busy_world : World :=
  mkWorld
    (<[ "other.parquet" := wide_data ]> {[ "data.parquet" := sample_data ]})
    (<[ "s3://models/2/def/artifacts/other" :=
          (fun df => Raised (IllegalArgumentException "unused")) ]>
       {[ sample_uri := threshold_model ]})
    {[ "HOME" := "/root" ]}
    (fun _ _ => false).

(** The environment after lines 8 to 10. *)
Definition configured (env : gmap string string) : gmap string string :=
  <["AWS_SECRET_ACCESS_KEY" := "access-key"]>
    (<["AWS_ACCESS_KEY_ID" := "key-id"]>
       (<["MLFLOW_S3_ENDPOINT_URL" := "https://url.net"]> env)).

(** The first three calls of the program, with the environment each is
    made in. *)
Definition startup (env : gmap string string)
    : list (event * gmap string string) :=
  [ (EvSetEnv "MLFLOW_S3_ENDPOINT_URL" "https://url.net", env);
    (EvSetEnv "AWS_ACCESS_KEY_ID" "key-id",
     <["MLFLOW_S3_ENDPOINT_URL" := "https://url.net"]> env);
    (EvSetEnv "AWS_SECRET_ACCESS_KEY" "access-key",
     <["AWS_ACCESS_KEY_ID" := "key-id"]>
       (<["MLFLOW_S3_ENDPOINT_URL" := "https://url.net"]> env)) ].

(** The default of [--model_uri], line 52. *)
Definition default_model_uri : string :=
  "s3://kc-mlflow/341/49349c2583f94de18093e90d3d6ea578/artifacts/e-sidorova".

(** The calls of a run that belong to the stages of the pipeline. *)
Definition stage_calls {A} (o : Outcome A) : list event :=
  List.filter is_stage (calls o).

(** A command line that [argparse] ends the process for: something it
    cannot parse, or an option the parser does not declare. *)
Definition rejected (argv : list cli_item) : Prop :=
  In Unparsable argv \/
  exists opt v, In (Given opt v) argv /\ find_argument parser opt = None.


(** A model that returns its input as it is, so without a prediction. *)
Definition passthrough_model : Model := fun df => Returned df.

(** The drivers, in a table that already has a prediction column. *)
Definition labelled_data : DataFrame :=
  mkDataFrame ["driver_id"; "f1"; "prediction"]
    [ [VInt 1; VDouble (2 # 10); VInt 1];
      [VInt 2; VDouble (9 # 10); VInt 0] ].

Definition world_of (df : DataFrame) (m : Model) : World :=
  mkWorld {[ "data.parquet" := df ]} {[ sample_uri := m ]}
    {[ "HOME" := "/root" ]} String.eqb.

(** Names compared without regard to the case of their letters, as a
    session does that leaves [spark.sql.caseSensitive] at its default. *)
Definition lower (c : ascii) : ascii :=
  let n := nat_of_ascii c in
  if (65 <=? n)%nat && (n <=? 90)%nat then ascii_of_nat (n + 32) else c.

Fixpoint lowercase (s : string) : string :=
  match s with
  | "" => ""
  | String c s' => String (lower c) (lowercase s')
  end.

Definition same_name (a b : string) : bool :=
  String.eqb (lowercase a) (lowercase b).

Definition lenient_spark : SparkSession :=
  mkSparkSession "PySparkPredict" same_name.

(** The session of [sample_spark] under another application name. *)
Definition renamed_spark : SparkSession :=
  mkSparkSession "nightly-batch" String.eqb.

(** The drivers, with the identifier column spelled in capitals. *)
Definition capitalised_data : DataFrame :=
  mkDataFrame ["DRIVER_ID"; "f1"]
    [ [VInt 1; VDouble (2 # 10)];
      [VInt 2; VDouble (9 # 10)] ].

(** * Properties *)

(** ** How a run of [process] goes *)

Ltac run_script :=
  unfold process, read_parquet, load_model, transform, select, write_parquet,
    bind, emit, get, put, lift, ret, raise; simpl.

Lemma process_run spark data_path result model_uri w :
  process_spec spark data_path result model_uri w
    (process spark data_path result model_uri w).
Proof.
  run_script.
  destruct (fs w !! data_path) as [data_df|] eqn:Hdata; simpl;
    [|by apply run_unreadable].
  destruct (registry w !! model_uri) as [model|] eqn:Hmodel; simpl;
    [|by eapply run_unresolved].
  destruct (model data_df) as [transformed|e] eqn:Htransform; simpl;
    [|by eapply run_rejected].
  destruct (select_columns (resolver spark) output_columns transformed)
    as [predictions|e] eqn:Hselect; simpl; [|by eapply run_unselectable].
  destruct (fs w !! result) as [old|] eqn:Hresult; simpl.
  - by eapply run_unwritable.
  - by eapply run_written.
Qed.

Example scenario :
  fs (final (process sample_spark "data.parquet" "result" sample_uri
               sample_world)) !! "result"
  = Some (mkDataFrame ["driver_id"; "prediction"]
            [ [VInt 1; VInt 0]; [VInt 2; VInt 1] ]).
Proof. vm_compute. reflexivity. Qed.

(** A run that returns went through all five calls. *)
Lemma process_returned spark data_path result model_uri w :
  res (process spark data_path result model_uri w) = Returned tt ->
  exists data_df (model : Model) transformed predictions,
    fs w !! data_path = Some data_df /\
    registry w !! model_uri = Some model /\
    model data_df = Returned transformed /\
    select_columns (resolver spark) output_columns transformed
      = Returned predictions /\
    fs w !! result = None /\
    process spark data_path result model_uri w
      = mkOutcome (set_fs (<[result := predictions]> (fs w)) w)
          (logged w (pipeline data_path result model_uri)) (Returned tt).
Proof.
  intros Hres.
  destruct (process_run spark data_path result model_uri w);
    simpl in Hres; try discriminate Hres.
  by exists data_df, model, transformed, predictions.
Qed.

(** ** What [select] keeps *)

Lemma select_columns_schema r names df out :
  select_columns r names df = Returned out ->
  columns out = names /\ length (rows out) = length (rows df).
Proof.
  unfold select_columns.
  destruct (resolve_columns r (columns df) names) as [idx|e]; [|discriminate].
  intros [= <-]. simpl. by rewrite length_map.
Qed.


(** ** C1: the schema of the output *)

Lemma select_columns_cells r names df out :
  select_columns r names df = Returned out ->
  Forall (fun row => length row = length names) (rows out).
Proof.
  unfold select_columns, resolve_columns.
  destruct (List.find (ambiguous r (columns df)) names); [discriminate|].
  destruct (List.find (unresolved r (columns df)) names); [discriminate|].
  intros [= <-]. cbn [rows]. apply Forall_forall. intros row Hrow.
  apply list_elem_of_In, in_map_iff in Hrow as (row' & <- & _).
  unfold project. by rewrite !length_map.
Qed.

(** C1: whenever [process] returns, the table it wrote at the output path
    has exactly two columns, the identifier column, which the script calls
    driver_id, and prediction, in this order, and every row of it has
    exactly two cells, whatever the columns of the input dataset and of the
    table the model made of it. *)
Theorem output_has_two_columns spark data_path result model_uri w out :
  res (process spark data_path result model_uri w) = Returned tt ->
  fs (final (process spark data_path result model_uri w)) !! result
    = Some out ->
  columns out = ["driver_id"; "prediction"] /\
  length (columns out) = 2 /\
  Forall (fun row => length row = 2) (rows out).
Proof.
  intros Hres Hout.
  destruct (process_returned _ _ _ _ _ Hres)
    as (data_df & model & transformed & predictions
        & _ & _ & _ & Hselect & _ & Hrun).
  rewrite Hrun in Hout. cbn [final set_fs fs] in Hout.
  rewrite lookup_insert_eq in Hout. injection Hout as <-.
  pose proof (select_columns_cells _ _ _ _ Hselect) as Hcells.
  apply select_columns_schema in Hselect as [-> _]. auto.
Qed.

Lemma output_has_two_columns_witness :
  let o := process sample_spark "data.parquet" "result" sample_uri
             (world_with wide_data) in
  let out := mkDataFrame ["driver_id"; "prediction"]
               [ [VInt 1; VInt 0]; [VInt 2; VInt 1] ] in
  length (columns wide_data) = 4 /\
  res o = Returned tt /\
  fs (final o) !! "result" = Some out /\
  columns out = ["driver_id"; "prediction"] /\
  length (columns out) = 2 /\
  Forall (fun row => length row = 2) (rows out).
Proof.
  split; [reflexivity|].
  split; [vm_compute; reflexivity|].
  split; [vm_compute; reflexivity|].
  apply (output_has_two_columns sample_spark "data.parquet" "result"
           sample_uri (world_with wide_data)).
  - vm_compute; reflexivity.
  - vm_compute; reflexivity.
Defined.

(** ** C2: one output row per input row *)





Lemma logged_calls w evs : map fst (logged w evs) = evs.
Proof. unfold logged. rewrite map_map. apply map_id. Qed.

(** ** C3: an existing output is never replaced *)

(** C3: when a dataset already exists at the output path, [process] raises
    and leaves every dataset as it was; if the run gets as far as the write,
    it is the write that raises, because the path exists.  So a second run
    after one that returned, with the same arguments, makes all five calls
    and fails at the last one, the write, leaving the first output in place. *)
Theorem existing_output_not_overwritten spark data_path result model_uri w old :
  fs w !! result = Some old ->
  let o := process spark data_path result model_uri w in
  (exists e, res o = Raised e) /\
  final o = w /\
  (In (EvWriteParquet result) (calls o) ->
     res o = Raised (PathAlreadyExists result) /\
     calls o = pipeline data_path result model_uri) /\
  (forall w0,
     res (process spark data_path result model_uri w0) = Returned tt ->
     w = final (process spark data_path result model_uri w0) ->
     res o = Raised (PathAlreadyExists result) /\
     calls o = pipeline data_path result model_uri).
Proof.
  intros Hold o.
  pose proof logged_calls as Hlog.
  split; [|split; [|split]].
  - subst o.
    destruct (process_run spark data_path result model_uri w);
      cbn [res]; eauto.
    congruence.
  - subst o.
    destruct (process_run spark data_path result model_uri w);
      cbn [final]; try reflexivity.
    congruence.
  - subst o. unfold calls.
    destruct (process_run spark data_path result model_uri w);
      cbn [res trace]; rewrite Hlog; cbn [take pipeline In];
      intros Hin; try (split; reflexivity).
    all: try (repeat destruct Hin as [Hin|Hin]; try discriminate Hin;
              contradiction).
    congruence.
  - intros w0 Hfirst ->.
    destruct (process_returned _ _ _ _ _ Hfirst)
      as (data_df & model & transformed & predictions
          & Hdata & Hmodel & Htransform & Hselect & Hfree & Hrun).
    assert (Hne : result <> data_path) by congruence.
    subst o. rewrite Hrun. cbn [final].
    set (w1 := set_fs (<[result := predictions]> (fs w0)) w0).
    assert (Hdata1 : fs w1 !! data_path = Some data_df).
    { unfold w1. cbn [fs set_fs]. by rewrite lookup_insert_ne. }
    assert (Hresult1 : fs w1 !! result = Some predictions).
    { unfold w1. cbn [fs set_fs]. by rewrite lookup_insert_eq. }
    unfold calls.
    destruct (process_run spark data_path result model_uri w1)
      as [H|? H1 H2|? ? ? H1 H2 H3|? ? ? ? H1 H2 H3 H4|? ? ? ? ? H1 H2 H3 H4 H5
          |? ? ? ? H1 H2 H3 H4 H5];
      cbn [res trace]; rewrite Hlog.
    + congruence.
    + unfold w1 in H2. cbn [registry set_fs] in H2.
      pose proof (eq_trans (eq_sym H2) Hmodel) as Habs. discriminate Habs.
    + unfold w1 in H2. cbn [registry set_fs] in H2.
      pose proof (eq_trans (eq_sym H2) Hmodel) as Hsame.
      injection Hsame as ->. congruence.
    + unfold w1 in H2. cbn [registry set_fs] in H2.
      pose proof (eq_trans (eq_sym H2) Hmodel) as Hsame.
      injection Hsame as ->. congruence.
    + split; reflexivity.
    + congruence.
Qed.

Lemma existing_output_not_overwritten_witness :
  let first := process sample_spark "data.parquet" "result" sample_uri
                 sample_world in
  let second := process sample_spark "data.parquet" "result" sample_uri
                  (final first) in
  res first = Returned tt /\
  res second = Raised (PathAlreadyExists "result") /\
  final second = final first /\
  calls second = pipeline "data.parquet" "result" sample_uri.
Proof.
  intros first second.
  split; [vm_compute; reflexivity|].
  destruct (existing_output_not_overwritten sample_spark "data.parquet"
              "result" sample_uri (final first)
              (mkDataFrame ["driver_id"; "prediction"]
                 [ [VInt 1; VInt 0]; [VInt 2; VInt 1] ]))
    as (_ & Hfinal & _ & Hsecond).
  - vm_compute; reflexivity.
  - destruct (Hsecond sample_world) as [Hres Hcalls].
    + vm_compute; reflexivity.
    + reflexivity.
    + split; [exact Hres|]. split; [exact Hfinal|exact Hcalls].
Defined.

(** ** C4: no model, no output *)

(** C4: when the registry cannot resolve the model URI, [process] raises,
    the write is never called, and the world, so also the output path, is
    left exactly as it was; if the dataset could be read, the exception is
    the one of the registry and the run ends at the second call. *)
Theorem unresolved_model_writes_nothing spark data_path result model_uri w :
  registry w !! model_uri = None ->
  let o := process spark data_path result model_uri w in
  (exists e, res o = Raised e) /\
  (forall path, ~ In (EvWriteParquet path) (calls o)) /\
  final o = w /\
  fs (final o) !! result = fs w !! result /\
  (is_Some (fs w !! data_path) ->
     res o = Raised (MlflowException model_uri) /\
     calls o = [EvReadParquet data_path; EvLoadModel model_uri]).
Proof.
  intros Hnone o. subst o. unfold calls.
  destruct (process_run spark data_path result model_uri w)
    as [H|? H1 H2|? ? ? H1 H2 H3|? ? ? ? H1 H2 H3 H4|? ? ? ? ? H1 H2 H3 H4 H5
        |? ? ? ? H1 H2 H3 H4 H5];
    try (pose proof (eq_trans (eq_sym Hnone) H2) as Habs; discriminate Habs);
    cbn [res trace final]; rewrite logged_calls; cbn [take pipeline].
  - split; [eauto|]. split; [|split; [reflexivity|split; [reflexivity|]]].
    + intros path [Hin|[]]. discriminate Hin.
    + intros [df Hdf]. congruence.
  - split; [eauto|]. split; [|split; [reflexivity|split; [reflexivity|]]].
    + intros path [Hin|[Hin|[]]]; discriminate Hin.
    + intros _. split; reflexivity.
Qed.

Lemma unresolved_model_writes_nothing_witness :
  let o := process sample_spark "data.parquet" "result" sample_uri
             world_without_model in
  registry world_without_model !! sample_uri = None /\
  res o = Raised (MlflowException sample_uri) /\
  final o = world_without_model /\
  fs (final o) !! "result" = None.
Proof.
  intros o.
  split; [vm_compute; reflexivity|].
  destruct (unresolved_model_writes_nothing sample_spark "data.parquet"
              "result" sample_uri world_without_model)
    as (_ & _ & Hfinal & Hresult & Hregistry).
  - vm_compute; reflexivity.
  - destruct Hregistry as [Hres _].
    + exists sample_data. vm_compute; reflexivity.
    + split; [exact Hres|]. split; [exact Hfinal|].
      etransitivity; [exact Hresult|]. vm_compute; reflexivity.
Defined.

(** ** C5: one fixed order of calls *)



(** ** C7: what a run changes *)

(** C7: a run of [process] that returns has changed one thing: there is a
    dataset at the output path, where there was none.  The registry and the
    environment are as before, so is the input dataset, and so is every
    other dataset. *)
Theorem only_output_created spark data_path result model_uri w :
  let o := process spark data_path result model_uri w in
  res o = Returned tt ->
  fs w !! result = None /\
  (exists predictions,
     final o = set_fs (<[result := predictions]> (fs w)) w) /\
  registry (final o) = registry w /\
  environ (final o) = environ w /\
  fs (final o) !! data_path = fs w !! data_path /\
  (forall path, path <> result -> fs (final o) !! path = fs w !! path).
Proof.
  intros o Hres. subst o.
  destruct (process_returned _ _ _ _ _ Hres)
    as (data_df & model & transformed & predictions
        & Hdata & Hmodel & Htransform & Hselect & Hfree & Hrun).
  rewrite Hrun. cbn [final set_fs fs registry environ].
  split; [exact Hfree|]. split; [by exists predictions|].
  split; [reflexivity|]. split; [reflexivity|]. split.
  - apply lookup_insert_ne. congruence.
  - intros path Hne. by apply lookup_insert_ne.
Qed.

Lemma only_output_created_witness :
  let o := process sample_spark "data.parquet" "result" sample_uri
             sample_world in
  res o = Returned tt /\
  registry (final o) = registry sample_world /\
  fs (final o) !! "data.parquet" = Some sample_data.
Proof.
  intros o.
  split; [vm_compute; reflexivity|].
  destruct (only_output_created sample_spark "data.parquet" "result"
              sample_uri sample_world)
    as (_ & _ & Hregistry & _ & Hdata & _).
  - vm_compute; reflexivity.
  - split; [exact Hregistry|].
    etransitivity; [exact Hdata|]. vm_compute; reflexivity.
Defined.

(** ** C8: an empty dataset *)



(** ** C10: what the result depends on *)

Lemma matches_ext r1 r2 name cols :
  (forall a b, r1 a b = r2 a b) ->
  forall i, matches r1 name cols i = matches r2 name cols i.
Proof.
  intros Hsame. induction cols as [|c cols IH]; intros i; [reflexivity|].
  cbn [matches]. rewrite Hsame, !IH. reflexivity.
Qed.

Lemma find_ext {A} (f g : A -> bool) l :
  (forall x, f x = g x) -> List.find f l = List.find g l.
Proof.
  intros Hsame. induction l as [|x l IH]; [reflexivity|].
  cbn [List.find]. rewrite Hsame, IH. reflexivity.
Qed.

Lemma select_columns_ext r1 r2 names df :
  (forall a b, r1 a b = r2 a b) ->
  select_columns r1 names df = select_columns r2 names df.
Proof.
  intros Hsame. unfold select_columns, resolve_columns.
  rewrite (find_ext (ambiguous r1 (columns df)) (ambiguous r2 (columns df)))
    by (intros name; unfold ambiguous; by rewrite (matches_ext r1 r2)).
  rewrite (find_ext (unresolved r1 (columns df))
             (unresolved r2 (columns df)))
    by (intros name; unfold unresolved; by rewrite (matches_ext r1 r2)).
  rewrite (map_ext (fun name => hd 0 (matches r1 name (columns df) 0))
             (fun name => hd 0 (matches r2 name (columns df) 0)))
    by (intros name; by rewrite (matches_ext r1 r2)).
  reflexivity.
Qed.

(** C10, as stated, fails: the dataset, the model and the output path do
    not settle the result.  On one world, with the identifier column spelled
    DRIVER_ID, a session that compares names without regard to case returns
    and one that compares them exactly raises at the select. *)
Lemma session_settings_matter :
  ~ (forall spark1 spark2 data_path result model_uri w1 w2,
       fs w1 !! data_path = fs w2 !! data_path ->
       same_model (registry w1 !! model_uri) (registry w2 !! model_uri) ->
       fs w1 !! result = fs w2 !! result ->
       res (process spark1 data_path result model_uri w1)
       = res (process spark2 data_path result model_uri w2)).
Proof.
  intros Hclaim.
  specialize (Hclaim lenient_spark sample_spark "data.parquet" "result"
                sample_uri (world_with capitalised_data)
                (world_with capitalised_data)).
  assert (Hmodel : registry (world_with capitalised_data) !! sample_uri
                   = Some threshold_model) by (vm_compute; reflexivity).
  rewrite Hmodel in Hclaim.
  specialize (Hclaim eq_refl (fun df => eq_refl) eq_refl).
  vm_compute in Hclaim. discriminate Hclaim.
Qed.

(** C10 (amended): two runs of [process] with the same paths and URI, in
    sessions that resolve column names in the same way and in worlds that
    agree on the dataset at the data path, on the model the URI resolves
    to, as a function on tables, and on what is at the output path, end the
    same way: both return or both raise the same exception, after the same
    calls, and the same table, if any, is at the output path afterwards.
    Nothing else of the session or of the world matters. *)
Theorem process_deterministic spark1 spark2 data_path result model_uri
    w1 w2 :
  (forall a b, resolver spark1 a b = resolver spark2 a b) ->
  fs w1 !! data_path = fs w2 !! data_path ->
  same_model (registry w1 !! model_uri) (registry w2 !! model_uri) ->
  fs w1 !! result = fs w2 !! result ->
  let o1 := process spark1 data_path result model_uri w1 in
  let o2 := process spark2 data_path result model_uri w2 in
  res o1 = res o2 /\
  calls o1 = calls o2 /\
  fs (final o1) !! result = fs (final o2) !! result.
Proof.
  intros Hresolver Hdata Hmodel Hresult o1 o2. subst o1 o2. unfold calls.
  unfold same_model in Hmodel.
  destruct (process_run spark1 data_path result model_uri w1)
    as [H|? H1 H2|? m1 ? H1 H2 H3|? m1 ? ? H1 H2 H3 H4
        |? m1 ? ? ? H1 H2 H3 H4 H5|? m1 ? ? H1 H2 H3 H4 H5];
    try rewrite H2 in Hmodel;
    destruct (process_run spark2 data_path result model_uri w2)
      as [K|? K1 K2|? m2 ? K1 K2 K3|? m2 ? ? K1 K2 K3 K4
          |? m2 ? ? ? K1 K2 K3 K4 K5|? m2 ? ? K1 K2 K3 K4 K5];
    try rewrite K2 in Hmodel;
    try rewrite <- (select_columns_ext _ _ _ _ Hresolver) in K4;
    try contradiction;
    try congruence;
    cbn [res trace final set_fs fs]; rewrite !logged_calls;
    try (assert (data_df0 = data_df) as -> by congruence;
         rewrite Hmodel in *);
    try congruence;
    rewrite ?lookup_insert_eq;
    (split; [|split]); first [reflexivity | congruence].
Qed.

Lemma process_deterministic_witness :
  let o1 := process sample_spark "data.parquet" "result" sample_uri
              sample_world in
  let o2 := process renamed_spark "data.parquet" "result" sample_uri
              busy_world in
  appName sample_spark <> appName renamed_spark /\
  environ sample_world <> environ busy_world /\
  res o1 = res o2 /\
  calls o1 = calls o2 /\
  fs (final o1) !! "result" = fs (final o2) !! "result".
Proof.
  split; [discriminate|].
  split.
  - intros Habs.
    assert (Hhome : environ sample_world !! "HOME"
                    = environ busy_world !! "HOME") by (by rewrite Habs).
    vm_compute in Hhome. discriminate Hhome.
  - apply (process_deterministic sample_spark renamed_spark "data.parquet"
             "result" sample_uri sample_world busy_world).
    + intros a b. reflexivity.
    + vm_compute; reflexivity.
    + assert (Hleft : registry sample_world !! sample_uri
                      = Some threshold_model) by (vm_compute; reflexivity).
      assert (Hright : registry busy_world !! sample_uri
                       = Some threshold_model) by (vm_compute; reflexivity).
      rewrite Hleft, Hright. intros df. reflexivity.
    + vm_compute; reflexivity.
Defined.

(** ** C6: the defaults of the command line *)

Lemma store_all_keeps p argv : forall (ns ns' : Namespace) name,
  store_all p ns argv = Returned ns' ->
  (forall a v, In a p -> In (Given (option_string a) v) argv ->
               dest (option_string a) <> name) ->
  ns' !! name = ns !! name.
Proof.
  induction argv as [|item argv IH]; intros ns ns' name Hrun Hother.
  - injection Hrun as <-. reflexivity.
  - destruct item as [opt v|]; [|discriminate Hrun].
    cbn [store_all] in Hrun.
    destruct (find_argument p opt) as [a|] eqn:Hfind; [|discriminate Hrun].
    apply find_some in Hfind as [Hin Heq].
    apply String.eqb_eq in Heq. subst opt.
    rewrite (IH _ _ name Hrun).
    + apply lookup_insert_ne. apply (Hother a v Hin). left. reflexivity.
    + intros a' v' Hin' Hgiven. apply (Hother a' v' Hin'). right. exact Hgiven.
Qed.

Lemma parser_arguments a :
  In a parser ->
  option_string a = "--data" \/ option_string a = "--result" \/
  option_string a = "--model_uri".
Proof.
  intros [<-|[<-|[<-|[]]]]; cbn [option_string]; auto.
Qed.

(** C6: an option that the command line leaves out has its default in the
    parsed arguments: data.parquet for [--data], result for [--result], and
    for [--model_uri] the sample URI of line 52, which is the URI of an
    artifact of a run in a registry: experiment 341, a run id, artifacts,
    and a name, under the store s3://kc-mlflow. *)
Theorem parser_defaults argv w args :
  res (parse_args parser argv w) = Returned args ->
  (omitted "--data" argv -> attr args "data" = "data.parquet") /\
  (omitted "--result" argv -> attr args "result" = "result") /\
  (omitted "--model_uri" argv ->
     attr args "model_uri" = default_model_uri) /\
  registry_uri default_model_uri = true /\
  segments default_model_uri =
    ["s3:"; ""; "kc-mlflow"; "341"; "49349c2583f94de18093e90d3d6ea578";
     "artifacts"; "e-sidorova"].
Proof.
  intros Hres.
  assert (Hrun : store_all parser (initial_namespace parser) argv
                 = Returned args).
  { unfold parse_args, bind, emit, lift in Hres.
    destruct (store_all parser (initial_namespace parser) argv);
      cbn in Hres; [congruence|discriminate Hres]. }
  assert (Hkeep : forall opt,
    In opt ["--data"; "--result"; "--model_uri"] ->
    omitted opt argv ->
    args !! dest opt = initial_namespace parser !! dest opt).
  { intros opt Hopt Homitted.
    apply (store_all_keeps parser argv _ _ _ Hrun).
    intros a v Hin Hgiven Hdest.
    assert (option_string a = opt) as Hsame.
    { destruct (parser_arguments a Hin) as [Ha|[Ha|Ha]];
        rewrite Ha in Hdest;
        destruct Hopt as [<-|[<-|[<-|[]]]];
        first [exact Ha | discriminate Hdest]. }
    rewrite Hsame in Hgiven. exact (Homitted v Hgiven). }
  split; [|split; [|split; [|split]]].
  - intros Homitted. unfold attr.
    pose proof (Hkeep "--data" ltac:(cbn; auto) Homitted) as Hk.
    change (dest "--data") with "data" in Hk.
    rewrite Hk. vm_compute. reflexivity.
  - intros Homitted. unfold attr.
    pose proof (Hkeep "--result" ltac:(cbn; auto) Homitted) as Hk.
    change (dest "--result") with "result" in Hk.
    rewrite Hk. vm_compute. reflexivity.
  - intros Homitted. unfold attr.
    pose proof (Hkeep "--model_uri" ltac:(cbn; auto) Homitted) as Hk.
    change (dest "--model_uri") with "model_uri" in Hk.
    rewrite Hk. vm_compute. reflexivity.
  - vm_compute. reflexivity.
  - vm_compute. reflexivity.
Qed.

Lemma parser_defaults_witness :
  let argv := [Given "--result" "predictions"] in
  exists args,
    res (parse_args parser argv sample_world) = Returned args /\
    attr args "data" = "data.parquet" /\
    attr args "result" = "predictions" /\
    attr args "model_uri" = default_model_uri.
Proof.
  intros argv.
  exists (<["result" := "predictions"]> (initial_namespace parser)).
  assert (Hres : res (parse_args parser argv sample_world)
                 = Returned (<["result" := "predictions"]>
                               (initial_namespace parser)))
    by reflexivity.
  split; [exact Hres|].
  destruct (parser_defaults argv sample_world _ Hres)
    as (Hdata & _ & Huri & _).
  split; [|split].
  - apply Hdata. intros v [Habs|[]]. discriminate Habs.
  - vm_compute; reflexivity.
  - apply Huri. intros v [Habs|[]]. discriminate Habs.
Defined.

Example no_arguments :
  match res (parse_args parser [] sample_world) with
  | Returned args =>
      attr args "data" = "data.parquet" /\
      attr args "result" = "result" /\
      attr args "model_uri" = default_model_uri
  | Raised _ => False
  end.
Proof. vm_compute. repeat split. Qed.

(** ** C9: the settings of the artifact store *)

Lemma configured_credentials env : credentials_set (configured env).
Proof.
  unfold credentials_set, configured. split; [|split].
  - rewrite !lookup_insert_ne by discriminate. apply lookup_insert_eq.
  - rewrite lookup_insert_ne by discriminate. apply lookup_insert_eq.
  - apply lookup_insert_eq.
Qed.

(** No call of [process] touches the environment. *)
Lemma process_environ spark data_path result model_uri w :
  Forall (fun entry => snd entry = environ w)
    (trace (process spark data_path result model_uri w)) /\
  environ (final (process spark data_path result model_uri w)) = environ w.
Proof.
  assert (Hlogged : forall evs,
    Forall (fun entry : event * gmap string string => snd entry = environ w)
      (logged w evs)).
  { intros evs. unfold logged. apply Forall_forall.
    intros entry Hin. apply list_elem_of_In, in_map_iff in Hin
      as (ev & <- & _). reflexivity. }
  destruct (process_run spark data_path result model_uri w);
    cbn [trace final set_fs environ]; split; auto.
Qed.

(** The program, call by call: the three assignments, the parser, and, if
    the command line is accepted, the session and [process]. *)
Lemma script_run argv w :
  let w3 := set_environ (configured (environ w)) w in
  script argv w =
    match store_all parser (initial_namespace parser) argv with
    | Raised e =>
        mkOutcome w3
          (startup (environ w) ++ [(EvParseArgs, configured (environ w))])
          (Raised e)
    | Returned args =>
        let o := process (mkSparkSession "PySparkPredict" (sql_resolver w))
                   (attr args "data") (attr args "result")
                   (attr args "model_uri") w3 in
        mkOutcome (final o)
          (startup (environ w)
             ++ [(EvParseArgs, configured (environ w));
                 (EvGetOrCreate "PySparkPredict", configured (environ w))]
             ++ trace o)
          (res o)
    end.
Proof.
  intros w3.
  unfold script, configure_environ, setenv, parse_args, main,
    _spark_session, getOrCreate.
  unfold bind at 1 2 3 4 5 6 7 8. unfold emit, get, put, lift.
  cbn [environ set_environ fs registry sql_resolver].
  fold (configured (environ w)). fold w3.
  destruct (store_all parser (initial_namespace parser) argv) as [args|e].
  - unfold ret, bind. cbn [environ set_environ fs registry sql_resolver app].
    destruct (process _ _ _ _ _) as [w' calls' r]. reflexivity.
  - reflexivity.
Qed.

(** C9: in every run of the program, whatever the command line and the
    world it starts in, the first three calls are the assignments of the
    endpoint URL, the access key id and the secret access key; every call
    after them, so every call of a stage, is made in an environment that has
    the three settings, and the run ends with them set. *)
Theorem credentials_before_stages argv w :
  let o := script argv w in
  (exists rest,
     trace o = startup (environ w) ++ rest /\
     Forall (fun entry => credentials_set (snd entry)) rest) /\
  Forall (fun entry => is_stage (fst entry) = true ->
                       credentials_set (snd entry)) (trace o) /\
  credentials_set (environ (final o)).
Proof.
  intros o. subst o. rewrite script_run.
  pose proof (configured_credentials (environ w)) as Hset.
  assert (Hafter : forall spark data_path result model_uri,
    Forall (fun entry => credentials_set (snd entry))
      (trace (process spark data_path result model_uri
                (set_environ (configured (environ w)) w)))).
  { intros spark data_path result model_uri.
    destruct (process_environ spark data_path result model_uri
                (set_environ (configured (environ w)) w)) as [Hall _].
    eapply Forall_impl; [exact Hall|].
    intros entry ->. exact Hset. }
  assert (Hstartup :
    Forall (fun entry : event * gmap string string =>
              is_stage (fst entry) = true -> credentials_set (snd entry))
      (startup (environ w))).
  { unfold startup.
    repeat (constructor 2; [cbn [fst is_stage]; discriminate|]).
    constructor 1. }
  assert (Hweaken : forall l : list (event * gmap string string),
    Forall (fun entry => credentials_set (snd entry)) l ->
    Forall (fun entry => is_stage (fst entry) = true ->
                         credentials_set (snd entry)) l).
  { intros l Hl. eapply Forall_impl; [exact Hl|]. auto. }
  destruct (store_all parser (initial_namespace parser) argv) as [args|e];
    cbn [trace final].
  - assert (Hrest :
      Forall (fun entry : event * gmap string string =>
                credentials_set (snd entry))
        ([(EvParseArgs, configured (environ w));
          (EvGetOrCreate "PySparkPredict", configured (environ w))]
         ++ trace (process
                     (mkSparkSession "PySparkPredict" (sql_resolver w))
                     (attr args "data") (attr args "result")
                     (attr args "model_uri")
                     (set_environ (configured (environ w)) w)))).
    { apply Forall_app. split; [|apply Hafter].
      repeat (constructor 2; [exact Hset|]). constructor 1. }
    split; [eexists; split; [reflexivity|exact Hrest]|].
    split.
    + apply Forall_app. split; [exact Hstartup|apply Hweaken, Hrest].
    + destruct (process_environ
                  (mkSparkSession "PySparkPredict" (sql_resolver w))
                  (attr args "data") (attr args "result")
                  (attr args "model_uri")
                  (set_environ (configured (environ w)) w)) as [_ ->].
      exact Hset.
  - assert (Hrest :
      Forall (fun entry : event * gmap string string =>
                credentials_set (snd entry))
        [(EvParseArgs, configured (environ w))]).
    { repeat (constructor 2; [exact Hset|]). constructor 1. }
    split; [eexists; split; [reflexivity|exact Hrest]|].
    split.
    + apply Forall_app. split; [exact Hstartup|apply Hweaken, Hrest].
    + exact Hset.
Qed.

Example program_on_the_scenario :
  let o := script [] (mkWorld {[ "data.parquet" := sample_data ]}
                        {[ default_model_uri := threshold_model ]}
                        ∅ String.eqb) in
  res o = Returned tt /\
  calls o =
    [ EvSetEnv "MLFLOW_S3_ENDPOINT_URL" "https://url.net";
      EvSetEnv "AWS_ACCESS_KEY_ID" "key-id";
      EvSetEnv "AWS_SECRET_ACCESS_KEY" "access-key";
      EvParseArgs;
      EvGetOrCreate "PySparkPredict";
      EvReadParquet "data.parquet";
      EvLoadModel default_model_uri;
      EvTransform;
      EvSelect ["driver_id"; "prediction"];
      EvWriteParquet "result" ].
Proof. vm_compute. split; reflexivity. Qed.

(** * Further properties of the script *)

(** ** What [select] does with the two names of line 29 *)

Lemma select_output_columns r t :
  select_columns r output_columns t =
    match matches r "driver_id" (columns t) 0,
          matches r "prediction" (columns t) 0 with
    | _ :: _ :: _, _ => Raised (AmbiguousReference "driver_id")
    | _, _ :: _ :: _ => Raised (AmbiguousReference "prediction")
    | [], _ => Raised (UnresolvedColumn "driver_id")
    | [_], [] => Raised (UnresolvedColumn "prediction")
    | [i], [j] =>
        Returned (mkDataFrame output_columns
                    (map (project [i; j]) (rows t)))
    end.
Proof.
  unfold select_columns, resolve_columns, output_columns.
  cbn [List.find map]. unfold ambiguous, unresolved.
  destruct (matches r "driver_id" (columns t) 0) as [|i [|i' l]];
    destruct (matches r "prediction" (columns t) 0) as [|j [|j' l']];
    reflexivity.
Qed.

(** A position among the matches of a name is the position of a column
    that answers to the name. *)
Lemma matches_resolve r name cols : forall start i,
  In i (matches r name cols start) ->
  exists c, cols !! (i - start) = Some c /\ r c name = true /\ start <= i.
Proof.
  induction cols as [|c cols IH]; intros start i Hin; [destruct Hin|].
  cbn [matches] in Hin.
  destruct (r c name) eqn:Hc.
  - destruct Hin as [<-|Hin].
    + exists c. rewrite Nat.sub_diag. auto.
    + destruct (IH _ _ Hin) as (c' & Hc' & Hr & Hle).
      exists c'. split; [|split; [exact Hr|lia]].
      replace (i - start) with (S (i - S start)) by lia. exact Hc'.
  - destruct (IH _ _ Hin) as (c' & Hc' & Hr & Hle).
    exists c'. split; [|split; [exact Hr|lia]].
    replace (i - start) with (S (i - S start)) by lia. exact Hc'.
Qed.

(** ** Failures *)

(** X1: a run of [process] that raises before the write is called, be it
    at the read, at the registry, in the model or at the select, leaves the
    world exactly as it found it: no dataset is created, replaced or
    removed. *)
Theorem process_failure_changes_nothing spark data_path result model_uri w e :
  let o := process spark data_path result model_uri w in
  res o = Raised e ->
  ~ In (EvWriteParquet result) (calls o) ->
  final o = w.
Proof.
  intros o Hres _. subst o.
  destruct (process_run spark data_path result model_uri w);
    cbn [res final] in *; first [reflexivity | discriminate Hres].
Qed.

Lemma process_failure_changes_nothing_witness :
  let o := process sample_spark "data.parquet" "result" sample_uri
             (world_of sample_data passthrough_model) in
  res o = Raised (UnresolvedColumn "prediction") /\
  ~ In (EvWriteParquet "result") (calls o) /\
  final o = world_of sample_data passthrough_model.
Proof.
  intros o.
  assert (Hres : res o = Raised (UnresolvedColumn "prediction"))
    by (vm_compute; reflexivity).
  assert (Hcalls : ~ In (EvWriteParquet "result") (calls o)).
  { vm_compute. intros [H|[H|[H|[H|[]]]]]; discriminate H. }
  split; [exact Hres|]. split; [exact Hcalls|].
  exact (process_failure_changes_nothing sample_spark "data.parquet" "result"
           sample_uri (world_of sample_data passthrough_model) _ Hres Hcalls).
Defined.

(** X2: [process] returns only when the dataset could be read, the registry
    resolved the URI, the model returned a table, a column of that table
    answers to driver_id and one to prediction, and nothing was at the
    output path. *)
Theorem process_returns_only_if spark data_path result model_uri w :
  res (process spark data_path result model_uri w) = Returned tt ->
  exists data_df (model : Model) transformed c1 c2,
    fs w !! data_path = Some data_df /\
    registry w !! model_uri = Some model /\
    model data_df = Returned transformed /\
    In c1 (columns transformed) /\ resolver spark c1 "driver_id" = true /\
    In c2 (columns transformed) /\ resolver spark c2 "prediction" = true /\
    fs w !! result = None.
Proof.
  intros Hres.
  destruct (process_returned _ _ _ _ _ Hres)
    as (data_df & model & transformed & predictions
        & Hdata & Hmodel & Htransform & Hselect & Hfree & _).
  rewrite select_output_columns in Hselect.
  destruct (matches (resolver spark) "driver_id" (columns transformed) 0)
    as [|i [|i' l]] eqn:Hi; try discriminate Hselect;
    destruct (matches (resolver spark) "prediction" (columns transformed) 0)
      as [|j [|j' l']] eqn:Hj; try discriminate Hselect.
  destruct (matches_resolve (resolver spark) "driver_id"
              (columns transformed) 0 i) as (c1 & Hc1 & Hr1 & _);
    [rewrite Hi; left; reflexivity|].
  destruct (matches_resolve (resolver spark) "prediction"
              (columns transformed) 0 j) as (c2 & Hc2 & Hr2 & _);
    [rewrite Hj; left; reflexivity|].
  exists data_df, model, transformed, c1, c2.
  apply list_elem_of_lookup_2, list_elem_of_In in Hc1, Hc2.
  repeat split; assumption.
Qed.

Lemma process_returns_only_if_witness :
  res (process sample_spark "data.parquet" "result" sample_uri sample_world)
    = Returned tt /\
  exists data_df (model : Model) transformed,
    fs sample_world !! "data.parquet" = Some data_df /\
    registry sample_world !! sample_uri = Some model /\
    model data_df = Returned transformed /\
    fs sample_world !! "result" = None.
Proof.
  assert (Hres : res (process sample_spark "data.parquet" "result"
                        sample_uri sample_world) = Returned tt)
    by (vm_compute; reflexivity).
  split; [exact Hres|].
  destruct (process_returns_only_if sample_spark "data.parquet" "result"
              sample_uri sample_world Hres)
    as (data_df & model & transformed & c1 & c2
        & Hdata & Hmodel & Htransform & _ & _ & _ & _ & Hfree).
  exists data_df, model, transformed. auto.
Defined.

(** X3: when nothing is at the data path, [process] raises after the read
    alone: the registry is not asked for the model, whatever the URI, the
    output path is not looked at, and the world is unchanged.  For the empty
    string the reader refuses the path itself. *)
Theorem unreadable_dataset_stops_first spark data_path result model_uri w :
  fs w !! data_path = None ->
  let o := process spark data_path result model_uri w in
  (exists e, res o = Raised e) /\
  calls o = [EvReadParquet data_path] /\
  final o = w /\
  (data_path = "" ->
     exists msg, res o = Raised (IllegalArgumentException msg)).
Proof.
  intros Hnone o. subst o. unfold calls.
  destruct (process_run spark data_path result model_uri w);
    try congruence.
  cbn [res trace final]. rewrite logged_calls.
  split; [eauto|]. split; [reflexivity|]. split; [reflexivity|].
  intros ->. unfold unreadable. cbn. eauto.
Qed.

Lemma unreadable_dataset_stops_first_witness :
  let o := process sample_spark "missing.parquet" "result"
             "s3://models/0/none/artifacts/none" sample_world in
  fs sample_world !! "missing.parquet" = None /\
  registry sample_world !! "s3://models/0/none/artifacts/none" = None /\
  (exists e, res o = Raised e) /\
  calls o = [EvReadParquet "missing.parquet"] /\
  final o = sample_world.
Proof.
  intros o.
  split; [vm_compute; reflexivity|].
  split; [vm_compute; reflexivity|].
  destruct (unreadable_dataset_stops_first sample_spark "missing.parquet"
              "result" "s3://models/0/none/artifacts/none" sample_world)
    as (Hres & Hcalls & Hfinal & _).
  - vm_compute; reflexivity.
  - auto.
Defined.


(** X5: when no column of the table the model returns answers to driver_id,
    or none to prediction, [process] raises at the select: it stops after
    four calls, the write is not called and the world is unchanged.  When
    the other name has exactly one column, the exception names the missing
    column. *)
Theorem unselectable_columns_rejected spark data_path result model_uri w
    data_df (model : Model) transformed :
  fs w !! data_path = Some data_df ->
  registry w !! model_uri = Some model ->
  model data_df = Returned transformed ->
  let o := process spark data_path result model_uri w in
  let ids := matches (resolver spark) "driver_id" (columns transformed) 0 in
  let preds :=
    matches (resolver spark) "prediction" (columns transformed) 0 in
  (ids = [] \/ preds = [] ->
     (exists e, res o = Raised e) /\
     calls o = take 4 (pipeline data_path result model_uri) /\
     final o = w) /\
  (ids = [] -> length preds = 1 ->
     res o = Raised (UnresolvedColumn "driver_id")) /\
  (length ids = 1 -> preds = [] ->
     res o = Raised (UnresolvedColumn "prediction")).
Proof.
  intros Hdata Hmodel Htransform o ids preds.
  assert (Hcases :
    forall e,
      select_columns (resolver spark) output_columns transformed = Raised e ->
      o = mkOutcome w
            (logged w (take 4 (pipeline data_path result model_uri)))
            (Raised e)).
  { intros e Hselect. subst o.
    destruct (process_run spark data_path result model_uri w)
      as [H|? H1 H2|? ? ? H1 H2 H3|? ? ? ? H1 H2 H3 H4|? ? ? ? ? H1 H2 H3 H4 H5
          |? ? ? ? H1 H2 H3 H4 H5];
      try congruence;
      try (pose proof (eq_trans (eq_sym H2) Hmodel) as Hsame;
           first [discriminate Hsame | injection Hsame as ->]);
      try congruence;
      assert (data_df0 = data_df) as -> by congruence;
      assert (transformed0 = transformed) as -> by congruence;
      congruence. }
  pose proof (select_output_columns (resolver spark) transformed) as Hselect.
  fold ids preds in Hselect. unfold calls.
  destruct ids as [|i [|i' l]]; destruct preds as [|j [|j' l']];
    try rewrite (Hcases _ Hselect); cbn [res trace final length];
    rewrite ?logged_calls;
    repeat split; intros; eauto;
    try discriminate; try lia;
    try (exfalso; intuition (discriminate || lia)).
Qed.

Lemma unselectable_columns_rejected_witness :
  let w := world_of sample_data passthrough_model in
  let o := process sample_spark "data.parquet" "result" sample_uri w in
  matches String.eqb "prediction" (columns sample_data) 0 = [] /\
  res o = Raised (UnresolvedColumn "prediction") /\
  calls o = take 4 (pipeline "data.parquet" "result" sample_uri) /\
  final o = w.
Proof.
  intros w o.
  split; [reflexivity|].
  destruct (unselectable_columns_rejected sample_spark "data.parquet"
              "result" sample_uri w sample_data passthrough_model sample_data)
    as (Hstop & _ & Hmissing).
  - vm_compute; reflexivity.
  - vm_compute; reflexivity.
  - reflexivity.
  - split; [apply Hmissing; reflexivity|].
    apply Hstop. right. reflexivity.
Defined.

Example duplicate_prediction_is_ambiguous :
  res (process sample_spark "data.parquet" "result" sample_uri
         (world_of labelled_data threshold_model))
  = Raised (AmbiguousReference "prediction").
Proof. vm_compute. reflexivity. Qed.

(** ** What is written *)

(** X6: the table a returning run writes holds, row for row and in the order
    of the table the model returned, the cells of a column of that table
    that answers to driver_id and of one that answers to prediction.  With
    a model that works row by row, the k-th row of the output is therefore
    made from the k-th row of the input dataset and from no other. *)
Theorem output_rows_aligned spark data_path result model_uri w
    data_df (model : Model) :
  fs w !! data_path = Some data_df ->
  registry w !! model_uri = Some model ->
  let o := process spark data_path result model_uri w in
  res o = Returned tt ->
  exists transformed i j c1 c2,
    model data_df = Returned transformed /\
    columns transformed !! i = Some c1 /\
    resolver spark c1 "driver_id" = true /\
    columns transformed !! j = Some c2 /\
    resolver spark c2 "prediction" = true /\
    fs (final o) !! result
      = Some (mkDataFrame ["driver_id"; "prediction"]
                (map (fun row => [nth i row VNull; nth j row VNull])
                   (rows transformed))) /\
    (forall f out_columns g,
       (forall df, model df = rowwise_model f df) ->
       f (columns data_df) = Returned (out_columns, g) ->
       forall k row,
         rows data_df !! k = Some row ->
         exists out,
           fs (final o) !! result = Some out /\
           rows out !! k
             = Some [nth i (g row) VNull; nth j (g row) VNull]).
Proof.
  intros Hdata Hmodel o Hres. subst o.
  destruct (process_returned _ _ _ _ _ Hres)
    as (data_df' & model' & transformed & predictions
        & Hdata' & Hmodel' & Htransform & Hselect & _ & Hrun).
  assert (data_df' = data_df) as -> by congruence.
  pose proof (eq_trans (eq_sym Hmodel') Hmodel) as Hsame.
  injection Hsame as ->.
  rewrite select_output_columns in Hselect.
  destruct (matches (resolver spark) "driver_id" (columns transformed) 0)
    as [|i [|i' l]] eqn:Hi; try discriminate Hselect;
    destruct (matches (resolver spark) "prediction" (columns transformed) 0)
      as [|j [|j' l']] eqn:Hj; try discriminate Hselect.
  injection Hselect as <-.
  destruct (matches_resolve (resolver spark) "driver_id"
              (columns transformed) 0 i) as (c1 & Hc1 & Hr1 & _);
    [rewrite Hi; left; reflexivity|].
  destruct (matches_resolve (resolver spark) "prediction"
              (columns transformed) 0 j) as (c2 & Hc2 & Hr2 & _);
    [rewrite Hj; left; reflexivity|].
  rewrite Nat.sub_0_r in Hc1, Hc2.
  exists transformed, i, j, c1, c2.
  rewrite Hrun. cbn [final set_fs fs]. rewrite lookup_insert_eq.
  split; [exact Htransform|]. split; [exact Hc1|]. split; [exact Hr1|].
  split; [exact Hc2|]. split; [exact Hr2|]. split; [reflexivity|].
  intros f out_columns g Hf Hschema k row Hrow.
  eexists. split; [reflexivity|]. cbn [rows].
  rewrite Hf in Htransform. unfold rowwise_model in Htransform.
  rewrite Hschema in Htransform. injection Htransform as <-. cbn [rows].
  rewrite !list_lookup_fmap, Hrow. reflexivity.
Qed.

Lemma output_rows_aligned_witness :
  let o := process sample_spark "data.parquet" "result" sample_uri
             (world_with wide_data) in
  res o = Returned tt /\
  exists transformed i j,
    threshold_model wide_data = Returned transformed /\
    columns transformed !! i = Some "driver_id" /\
    columns transformed !! j = Some "prediction" /\
    fs (final o) !! "result"
      = Some (mkDataFrame ["driver_id"; "prediction"]
                (map (fun row => [nth i row VNull; nth j row VNull])
                   (rows transformed))).
Proof.
  intros o.
  assert (Hres : res o = Returned tt) by (vm_compute; reflexivity).
  split; [exact Hres|].
  destruct (output_rows_aligned sample_spark "data.parquet" "result"
              sample_uri (world_with wide_data) wide_data threshold_model)
    as (transformed & i & j & c1 & c2
        & Htransform & Hc1 & Hr1 & Hc2 & Hr2 & Hout & _).
  - vm_compute; reflexivity.
  - vm_compute; reflexivity.
  - exact Hres.
  - exists transformed, i, j.
    apply String.eqb_eq in Hr1, Hr2. subst c1 c2. auto.
Defined.

(** ** The program as a whole *)

Lemma store_all_rejects p argv :
  (In Unparsable argv \/
   exists opt v, In (Given opt v) argv /\ find_argument p opt = None) ->
  forall ns, store_all p ns argv = Raised SystemExit.
Proof.
  induction argv as [|item argv IH]; intros Hbad ns.
  - destruct Hbad as [[]|(opt & v & [] & _)].
  - destruct item as [opt v|]; [|reflexivity].
    cbn [store_all].
    destruct (find_argument p opt) as [a|] eqn:Hfind; [|reflexivity].
    apply IH.
    destruct Hbad as [[Habs|Hin]|(opt' & v' & [Heq|Hin] & Hnone)].
    + discriminate Habs.
    + left. exact Hin.
    + injection Heq as <- <-. congruence.
    + right. exists opt', v'. auto.
Qed.

(** X8: on a command line that [argparse] rejects, the program ends with
    [SystemExit] after the three assignments and the parser: no session is
    made, no stage is called, and storage and registry are as before; the
    environment has been set all the same. *)
Theorem rejected_command_line_runs_nothing argv w :
  rejected argv ->
  let o := script argv w in
  res o = Raised SystemExit /\
  calls o = map fst (startup (environ w)) ++ [EvParseArgs] /\
  stage_calls o = [] /\
  fs (final o) = fs w /\
  registry (final o) = registry w /\
  environ (final o) = configured (environ w).
Proof.
  intros Hbad o. subst o. unfold stage_calls, calls.
  rewrite script_run.
  rewrite (store_all_rejects parser argv Hbad).
  cbn [res trace final set_environ fs registry environ].
  rewrite map_app. repeat split; reflexivity.
Qed.

Lemma rejected_command_line_runs_nothing_witness :
  let argv := [Given "--data" "data.parquet"; Given "--output" "result"] in
  let o := script argv sample_world in
  rejected argv /\
  res o = Raised SystemExit /\
  stage_calls o = [] /\
  fs (final o) = fs sample_world.
Proof.
  intros argv o.
  assert (Hbad : rejected argv).
  { right. exists "--output", "result". split; [|reflexivity].
    right. left. reflexivity. }
  split; [exact Hbad|].
  destruct (rejected_command_line_runs_nothing argv sample_world Hbad)
    as (Hres & _ & Hstages & Hfs & _).
  auto.
Defined.





Lemma parse_args_returned p argv w args :
  res (parse_args p argv w) = Returned args ->
  store_all p (initial_namespace p) argv = Returned args.
Proof.
  unfold parse_args, bind, emit, lift, ret, raise.
  destruct (store_all p (initial_namespace p) argv); cbn [res]; congruence.
Qed.

Lemma pipeline_calls_are_stages n data_path result model_uri :
  List.filter is_stage (take n (pipeline data_path result model_uri))
  = take n (pipeline data_path result model_uri).
Proof.
  unfold pipeline.
  do 6 (destruct n as [|n]; [reflexivity|]). reflexivity.
Qed.

(** X10: on a command line that is accepted, the stage calls of the program
    are those of one run of the pipeline on the parsed arguments: the read
    at the value of [data], then the model of [model_uri], the transform,
    the select, and the write at the value of [result], as far as the run
    gets.  Whatever happens, no dataset other than the one at that output
    path is touched, the registry is unchanged, and a run that returns has
    left a dataset there. *)
Theorem program_runs_the_pipeline argv w args :
  res (parse_args parser argv w) = Returned args ->
  let o := script argv w in
  (exists n, 0 < n <= 5 /\
     stage_calls o =
       take n (pipeline (attr args "data") (attr args "result")
                 (attr args "model_uri"))) /\
  (forall path, path <> attr args "result" ->
     fs (final o) !! path = fs w !! path) /\
  registry (final o) = registry w /\
  (res o = Returned tt ->
     fs w !! attr args "result" = None /\
     is_Some (fs (final o) !! attr args "result")).
Proof.
  intros Hparse o. subst o. unfold stage_calls, calls.
  apply parse_args_returned in Hparse.
  rewrite script_run, Hparse. cbn [trace final res].
  rewrite !map_app, !List.filter_app.
  cbn [map fst startup List.filter is_stage app].
  set (w3 := set_environ (configured (environ w)) w).
  assert (Hfs : fs w3 = fs w) by reflexivity.
  assert (Hregistry : registry w3 = registry w) by reflexivity.
  destruct (process_run (mkSparkSession "PySparkPredict" (sql_resolver w))
              (attr args "data") (attr args "result") (attr args "model_uri")
              w3)
    as [H|? H1 H2|? ? ? H1 H2 H3|? ? ? ? H1 H2 H3 H4|? ? ? ? ? H1 H2 H3 H4 H5
        |? ? ? ? H1 H2 H3 H4 H5];
    cbn [trace final res set_fs fs registry];
    rewrite logged_calls, ?pipeline_calls_are_stages.
  1-4: split; [eexists; split; [|reflexivity]; lia|];
       split; [intros; by rewrite Hfs|];
       split; [exact Hregistry|discriminate].
  - split; [exists 5; split; [lia|apply (pipeline_calls_are_stages 5)]|].
    split; [intros; by rewrite Hfs|].
    split; [exact Hregistry|discriminate].
  - split; [exists 5; split; [lia|apply (pipeline_calls_are_stages 5)]|].
    split; [intros path Hne; rewrite lookup_insert_ne by auto;
            by rewrite Hfs|].
    split; [exact Hregistry|]. intros _. split.
    + rewrite <- Hfs. exact H5.
    + rewrite lookup_insert_eq. eauto.
Qed.

Lemma program_runs_the_pipeline_witness :
  let w := world_of sample_data threshold_model in
  let argv := [Given "--model_uri" sample_uri; Given "--result" "out"] in
  let o := script argv w in
  exists args,
    res (parse_args parser argv w) = Returned args /\
    attr args "result" = "out" /\
    stage_calls o = pipeline "data.parquet" "out" sample_uri /\
    fs (final o) !! "data.parquet" = Some sample_data /\
    is_Some (fs (final o) !! "out").
Proof.
  intros w argv o.
  exists (<["result" := "out"]>
            (<["model_uri" := sample_uri]> (initial_namespace parser))).
  assert (Hparse : res (parse_args parser argv w)
                   = Returned (<["result" := "out"]>
                                 (<["model_uri" := sample_uri]>
                                    (initial_namespace parser))))
    by reflexivity.
  split; [exact Hparse|].
  split; [vm_compute; reflexivity|].
  destruct (program_runs_the_pipeline argv w _ Hparse)
    as (_ & Hframe & _ & Hwritten).
  split; [vm_compute; reflexivity|].
  split.
  - etransitivity; [apply Hframe; vm_compute; discriminate|].
    vm_compute; reflexivity.
  - assert (Hattr : attr (<["result" := "out"]>
                            (<["model_uri" := sample_uri]>
                               (initial_namespace parser))) "result" = "out")
      by (vm_compute; reflexivity).
    rewrite Hattr in Hwritten. apply Hwritten. vm_compute; reflexivity.
Defined.

Lemma store_all_app p argv1 argv2 : forall ns,
  store_all p ns (argv1 ++ argv2) =
    match store_all p ns argv1 with
    | Returned ns1 => store_all p ns1 argv2
    | Raised e => Raised e
    end.
Proof.
  induction argv1 as [|item argv1 IH]; intros ns; [reflexivity|].
  destruct item as [opt v|]; [|reflexivity].
  cbn [app store_all]. destruct (find_argument p opt); [apply IH|reflexivity].
Qed.

Lemma parser_keeps opt argv (ns ns' : Namespace) :
  In opt ["--data"; "--result"; "--model_uri"] ->
  omitted opt argv ->
  store_all parser ns argv = Returned ns' ->
  ns' !! dest opt = ns !! dest opt.
Proof.
  intros Hopt Homitted Hrun.
  apply (store_all_keeps parser argv _ _ _ Hrun).
  intros a v Hin Hgiven Hdest.
  assert (option_string a = opt) as Hsame.
  { destruct (parser_arguments a Hin) as [Ha|[Ha|Ha]];
      rewrite Ha in Hdest;
      destruct Hopt as [<-|[<-|[<-|[]]]];
      first [exact Ha | discriminate Hdest]. }
  rewrite Hsame in Hgiven. exact (Homitted v Hgiven).
Qed.

(** X11: when an option of the parser is given on an accepted command
    line, the parsed arguments hold, under its name without the dashes, the
    value of its last occurrence; values given earlier for it, and the
    default, are dropped. *)
Theorem given_option_is_used argv before after opt v w args :
  argv = before ++ Given opt v :: after ->
  In opt ["--data"; "--result"; "--model_uri"] ->
  omitted opt after ->
  res (parse_args parser argv w) = Returned args ->
  attr args (dest opt) = v.
Proof.
  intros -> Hopt Hlast Hparse.
  apply parse_args_returned in Hparse.
  rewrite store_all_app in Hparse.
  destruct (store_all parser (initial_namespace parser) before)
    as [ns1|e]; [|discriminate Hparse].
  cbn [store_all] in Hparse.
  destruct (find_argument parser opt) as [a|] eqn:Hfind;
    [|discriminate Hparse].
  apply find_some in Hfind as [_ Heq]. apply String.eqb_eq in Heq.
  rewrite Heq in Hparse.
  unfold attr. rewrite (parser_keeps opt after _ _ Hopt Hlast Hparse).
  pose proof (lookup_insert_eq (M := gmap string) ns1 (dest opt) v) as Hv.
  unfold Namespace in *. rewrite Hv. reflexivity.
Qed.

Lemma given_option_is_used_witness :
  let argv := [Given "--data" "a.parquet"; Given "--result" "out";
               Given "--data" "b.parquet"] in
  exists args,
    res (parse_args parser argv sample_world) = Returned args /\
    attr args "data" = "b.parquet".
Proof.
  intros argv.
  exists (<["data" := "b.parquet"]>
            (<["result" := "out"]>
               (<["data" := "a.parquet"]> (initial_namespace parser)))).
  assert (Hparse : res (parse_args parser argv sample_world)
                   = Returned
                       (<["data" := "b.parquet"]>
                          (<["result" := "out"]>
                             (<["data" := "a.parquet"]>
                                (initial_namespace parser)))))
    by reflexivity.
  split; [exact Hparse|].
  apply (given_option_is_used argv
           [Given "--data" "a.parquet"; Given "--result" "out"] []
           "--data" "b.parquet" sample_world _).
  - reflexivity.
  - left. reflexivity.
  - intros v' [].
  - exact Hparse.
Defined.

Lemma configured_twice env : configured (configured env) = configured env.
Proof.
  apply map_eq. intros key. unfold configured.
  rewrite !lookup_insert. repeat case_decide; congruence.
Qed.

(** X12: after a run of the program that returned, a second run on the same
    command line ends at the write, which finds the output of the first;
    the second run changes nothing at all, the environment included. *)
Theorem program_rerun_fails argv w :
  let o1 := script argv w in
  let o2 := script argv (final o1) in
  res o1 = Returned tt ->
  exists args,
    res (parse_args parser argv w) = Returned args /\
    res o2 = Raised (PathAlreadyExists (attr args "result")) /\
    stage_calls o2 =
      pipeline (attr args "data") (attr args "result")
        (attr args "model_uri") /\
    final o2 = final o1.
Proof.
  intros o1 o2 Hres. subst o2 o1.
  rewrite (script_run argv w) in Hres |- *.
  destruct (store_all parser (initial_namespace parser) argv)
    as [args|e] eqn:Hparse; [|discriminate Hres].
  cbn [res final] in Hres |- *.
  exists args. split.
  { unfold parse_args, bind, emit, lift, ret. rewrite Hparse. reflexivity. }
  set (spark := mkSparkSession "PySparkPredict" (sql_resolver w)) in *.
  set (w3 := set_environ (configured (environ w)) w) in *.
  destruct (process_returned _ _ _ _ _ Hres)
    as (data_df & model & transformed & predictions
        & Hdata & Hmodel & Htransform & Hselect & Hfree & Hrun).
  rewrite Hrun. cbn [final].
  set (w4 := set_fs (<[attr args "result" := predictions]> (fs w3)) w3).
  assert (Hsame : set_environ (configured (environ w4)) w4 = w4).
  { unfold w4, w3, set_environ, set_fs.
    cbn [fs registry environ sql_resolver].
    rewrite configured_twice. reflexivity. }
  unfold stage_calls, calls.
  rewrite script_run, Hparse. cbn [trace final res].
  rewrite Hsame.
  assert (Hresolver : sql_resolver w4 = sql_resolver w) by reflexivity.
  rewrite Hresolver. fold spark.
  assert (Hne : attr args "result" <> attr args "data") by congruence.
  destruct (process_run spark (attr args "data") (attr args "result")
              (attr args "model_uri") w4)
    as [H|? H1 H2|? ? ? H1 H2 H3|? ? ? ? H1 H2 H3 H4|? ? ? ? ? H1 H2 H3 H4 H5
        |? ? ? ? H1 H2 H3 H4 H5];
    unfold w4 in *; cbn [fs set_fs registry] in *;
    try rewrite lookup_insert_ne in * by exact Hne;
    try rewrite lookup_insert_eq in *;
    try congruence;
    try (pose proof (eq_trans (eq_sym H2) Hmodel) as Hm;
         first [discriminate Hm | injection Hm as ->]);
    try congruence.
  cbn [trace final res]. rewrite !map_app, !List.filter_app.
  cbn [map fst startup List.filter is_stage app].
  rewrite logged_calls. split; [reflexivity|]. split; reflexivity.
Qed.

Lemma program_rerun_fails_witness :
  let w := world_of sample_data threshold_model in
  let argv := [Given "--model_uri" sample_uri] in
  let o1 := script argv w in
  let o2 := script argv (final o1) in
  res o1 = Returned tt /\
  exists args,
    res (parse_args parser argv w) = Returned args /\
    res o2 = Raised (PathAlreadyExists (attr args "result")) /\
    final o2 = final o1.
Proof.
  intros w argv o1 o2.
  assert (Hres : res o1 = Returned tt) by (vm_compute; reflexivity).
  split; [exact Hres|].
  destruct (program_rerun_fails argv w Hres)
    as (args & Hparse & Hfails & _ & Hfinal).
  exists args. auto.
Defined.
